(** * SnowfallCanvas: particle simulation and adaptive-performance engine

    A shallow embedding of [src/index.ts].  JavaScript numbers are modelled
    as real numbers with exact arithmetic: [Math.PI] is [PI], [Math.sin] is
    [sin], [Math.floor] is [Zfloor], [Math.min] and [Math.max] are [Rmin]
    and [Rmax].  The rounding of binary64 arithmetic and of [Float32Array]
    stores, infinities and NaN are outside the model; a division is only
    read where its divisor is not zero.  Particle counts are integers
    ([Z]), array indices are [nat].

    The instance fields of the class and the two pieces of host state the
    class reads ([window.devicePixelRatio] and the outputs of
    [Math.random]) are gathered in one record that every method threads.
    Writes to the canvas element are not modelled, except for the
    [fillRect] calls of a frame, which [draw] returns. *)

From Stdlib Require Import Reals ZArith List Bool Lia Lra Psatz String.
From stdpp Require Import base list.
Import ListNotations.

Open Scope R_scope.

(** ** Number helpers *)

Definition Rltb (x y : R) : bool := if Rlt_dec x y then true else false.
Definition Rleb (x y : R) : bool := if Rle_dec x y then true else false.
Definition Reqb (x y : R) : bool := if Req_dec_T x y then true else false.

(** [Math.floor], with an integer result. *)
Definition Math_floor (x : R) : Z := Zfloor x.

(** Truncation toward zero, the first step of [ToInt32]. *)
Definition Rtrunc (x : R) : Z :=
  if Rle_dec 0 x then Zfloor x else (- Zfloor (- x))%Z.

(** [x | 0]: truncate, then wrap into the signed 32-bit range. *)
Definition ToInt32 (x : R) : Z :=
  ((Rtrunc x + 2 ^ 31) mod 2 ^ 32 - 2 ^ 31)%Z.

#[global] Instance R_inhabited : Inhabited R := populate 0.

(** ** Configuration *)

Definition Range : Type := (R * R)%type.

Module Config.
Record SnowConfig : Type := mk {
  amount : R;
  size : Range;
  swingSpeed : Range;
  fallSpeed : Range;
  amplitude : Range;
  color : string;
  dprCap : R;
  maxParticles : Z;
  autoInsertStyles : bool
}.

Definition with_amount (a : R) (c : SnowConfig) : SnowConfig :=
  mk a (size c) (swingSpeed c) (fallSpeed c) (amplitude c) (color c)
     (dprCap c) (maxParticles c) (autoInsertStyles c).

Definition with_maxParticles (m : Z) (c : SnowConfig) : SnowConfig :=
  mk (amount c) (size c) (swingSpeed c) (fallSpeed c) (amplitude c) (color c)
     (dprCap c) m (autoInsertStyles c).
End Config.

Definition defaultConfig : Config.SnowConfig :=
  Config.mk 5000 (0.5, 1.5) (0.1, 1) (40, 100) (25, 50)
            "rgb(225,225,225)" 2 4000 true.

(** ** Constants *)

Definition BASE_WIDTH : R := 1920.
Definition BASE_HEIGHT : R := 1080.
Definition TWO_PI : R := PI * 2.
Definition SIN_TABLE_SIZE : Z := 2048.

(** [SIN_TABLE[i]], filled once by the module-level loop for
    [0 <= i < SIN_TABLE_SIZE]. *)
Definition SIN_TABLE (i : Z) : R :=
  sin (IZR i / IZR SIN_TABLE_SIZE * TWO_PI).

(** ** Particle store: the eight [Float32Array] fields, indexed together

    An element is read with [arr !!! i] and written with [<[i := v]> arr];
    every index the loops use is below the array length (see [WellFormed]),
    where both agree with the typed array. *)

Module Store.
Record t : Type := mk {
  posX : list R;
  posY : list R;
  originX : list R;
  dx : list R;
  size : list R;
  amplitude : list R;
  velX : list R;
  velY : list R
}.

(** [new Float32Array(count)] for each field: zero-filled. *)
Definition alloc (count : nat) : t :=
  let z := replicate count 0 in mk z z z z z z z z.

Definition empty : t := alloc 0.

(** [arr[i] = v] on a typed array: an out-of-range index is ignored. *)
Definition set_posX (i : nat) (v : R) (p : t) : t :=
  mk (<[i := v]> (posX p)) (posY p) (originX p) (dx p)
     (size p) (amplitude p) (velX p) (velY p).
Definition set_posY (i : nat) (v : R) (p : t) : t :=
  mk (posX p) (<[i := v]> (posY p)) (originX p) (dx p)
     (size p) (amplitude p) (velX p) (velY p).
Definition set_originX (i : nat) (v : R) (p : t) : t :=
  mk (posX p) (posY p) (<[i := v]> (originX p)) (dx p)
     (size p) (amplitude p) (velX p) (velY p).
Definition set_dx (i : nat) (v : R) (p : t) : t :=
  mk (posX p) (posY p) (originX p) (<[i := v]> (dx p))
     (size p) (amplitude p) (velX p) (velY p).
Definition set_size (i : nat) (v : R) (p : t) : t :=
  mk (posX p) (posY p) (originX p) (dx p)
     (<[i := v]> (size p)) (amplitude p) (velX p) (velY p).
Definition set_amplitude (i : nat) (v : R) (p : t) : t :=
  mk (posX p) (posY p) (originX p) (dx p)
     (size p) (<[i := v]> (amplitude p)) (velX p) (velY p).
Definition set_velX (i : nat) (v : R) (p : t) : t :=
  mk (posX p) (posY p) (originX p) (dx p)
     (size p) (amplitude p) (<[i := v]> (velX p)) (velY p).
Definition set_velY (i : nat) (v : R) (p : t) : t :=
  mk (posX p) (posY p) (originX p) (dx p)
     (size p) (amplitude p) (velX p) (<[i := v]> (velY p)).

(** All eight arrays have length [n]. *)
Definition has_length (n : nat) (p : t) : Prop :=
  length (posX p) = n /\ length (posY p) = n /\ length (originX p) = n /\
  length (dx p) = n /\ length (size p) = n /\ length (amplitude p) = n /\
  length (velX p) = n /\ length (velY p) = n.
End Store.

(** ** Host state read by the class *)

Record Host : Type := mkHost {
  devicePixelRatio : R;          (* window.devicePixelRatio *)
  randomOutputs : nat -> R;      (* successive results of Math.random() *)
  randomCalls : nat              (* how many have been consumed *)
}.

(** ** Instance state of [SnowfallCanvas] *)

Record State : Type := mkState {
  running : bool;
  lastTime : R;
  width : R;
  height : R;
  dpr : R;
  particleCount : Z;
  store : Store.t;
  frameTimeAvg : R;
  perfCooldownFrames : Z;
  dprOverride : option R;
  config : Config.SnowConfig;
  host : Host
}.

Definition with_running (v : bool) (s : State) : State :=
  mkState v (lastTime s) (width s) (height s) (dpr s) (particleCount s)
    (store s) (frameTimeAvg s) (perfCooldownFrames s) (dprOverride s)
    (config s) (host s).
Definition with_lastTime (v : R) (s : State) : State :=
  mkState (running s) v (width s) (height s) (dpr s) (particleCount s)
    (store s) (frameTimeAvg s) (perfCooldownFrames s) (dprOverride s)
    (config s) (host s).
Definition with_geometry (w h d : R) (s : State) : State :=
  mkState (running s) (lastTime s) w h d (particleCount s)
    (store s) (frameTimeAvg s) (perfCooldownFrames s) (dprOverride s)
    (config s) (host s).
Definition with_particleCount (v : Z) (s : State) : State :=
  mkState (running s) (lastTime s) (width s) (height s) (dpr s) v
    (store s) (frameTimeAvg s) (perfCooldownFrames s) (dprOverride s)
    (config s) (host s).
Definition with_store (v : Store.t) (s : State) : State :=
  mkState (running s) (lastTime s) (width s) (height s) (dpr s)
    (particleCount s) v (frameTimeAvg s) (perfCooldownFrames s)
    (dprOverride s) (config s) (host s).
Definition with_frameTimeAvg (v : R) (s : State) : State :=
  mkState (running s) (lastTime s) (width s) (height s) (dpr s)
    (particleCount s) (store s) v (perfCooldownFrames s) (dprOverride s)
    (config s) (host s).
Definition with_perfCooldownFrames (v : Z) (s : State) : State :=
  mkState (running s) (lastTime s) (width s) (height s) (dpr s)
    (particleCount s) (store s) (frameTimeAvg s) v (dprOverride s)
    (config s) (host s).
Definition with_dprOverride (v : option R) (s : State) : State :=
  mkState (running s) (lastTime s) (width s) (height s) (dpr s)
    (particleCount s) (store s) (frameTimeAvg s) (perfCooldownFrames s) v
    (config s) (host s).
Definition with_config (v : Config.SnowConfig) (s : State) : State :=
  mkState (running s) (lastTime s) (width s) (height s) (dpr s)
    (particleCount s) (store s) (frameTimeAvg s) (perfCooldownFrames s)
    (dprOverride s) v (host s).
Definition with_host (v : Host) (s : State) : State :=
  mkState (running s) (lastTime s) (width s) (height s) (dpr s)
    (particleCount s) (store s) (frameTimeAvg s) (perfCooldownFrames s)
    (dprOverride s) (config s) v.

(** The field initialisers and the constructor body: [this.config] is the
    default configuration overlaid with the caller's (here already merged). *)
Definition construct (cfg : Config.SnowConfig) (h : Host) : State :=
  mkState false 0 0 0 1 0 Store.empty 16 0 None cfg h.

(** ** Random sampling *)

Definition Math_random (s : State) : R * State :=
  let h := host s in
  (randomOutputs h (randomCalls h),
   with_host (mkHost (devicePixelRatio h) (randomOutputs h) (S (randomCalls h))) s).

Definition rand (min max : R) (s : State) : R * State :=
  let (u, s') := Math_random s in (u * (max - min) + min, s').

(** ** Density model *)

(** [window.devicePixelRatio || 1]: a zero ratio counts as absent. *)
Definition getTargetDpr (s : State) : R :=
  let rawDpr :=
    if Req_dec_T (devicePixelRatio (host s)) 0 then 1
    else devicePixelRatio (host s) in
  let base := Rmax 1 rawDpr in
  let overridden :=
    match dprOverride s with
    | Some o => Rmin base o
    | None => base
    end in
  Rmin (Config.dprCap (config s)) overridden.

Definition getDensityAdjustedCount (s : State) (width height : R) : Z :=
  if Rleb width 0 || Rleb height 0 then 0%Z
  else
    let baseArea := BASE_WIDTH * BASE_HEIGHT in
    let density := Config.amount (config s) / baseArea in
    let dprFactor := 1 / getTargetDpr s in
    let estimated := Math_floor (density * width * height * dprFactor) in
    Z.max 0 (Z.min (Config.maxParticles (config s)) estimated).

(** ** Seeding and recycling *)

(** Apply an array write to the store held by the instance. *)
Definition write (f : Store.t -> Store.t) (s : State) : State :=
  with_store (f (store s)) s.

Definition seedParticle (i : nat) (s : State) : State :=
  let (ox, s) := rand 0 (width s) s in
  let s := write (Store.set_originX i ox) s in
  let s := write (Store.set_posX i (Store.originX (store s) !!! i)) s in
  let (y, s) := rand (- height s) 0 s in
  let s := write (Store.set_posY i y) s in
  let (p, s) := rand 0 TWO_PI s in
  let s := write (Store.set_dx i p) s in
  let (vx, s) :=
    rand (fst (Config.swingSpeed (config s))) (snd (Config.swingSpeed (config s))) s in
  let s := write (Store.set_velX i vx) s in
  let (vy, s) :=
    rand (fst (Config.fallSpeed (config s))) (snd (Config.fallSpeed (config s))) s in
  let s := write (Store.set_velY i vy) s in
  let (sz, s) :=
    rand (fst (Config.size (config s))) (snd (Config.size (config s))) s in
  let s := write (Store.set_size i sz) s in
  let (am, s) :=
    rand (fst (Config.amplitude (config s))) (snd (Config.amplitude (config s))) s in
  write (Store.set_amplitude i am) s.

(** [for (let i = 0; i < n; i += 1) body(i)] *)
Definition for_each (n : nat) (body : nat -> State -> State) (s : State) : State :=
  fold_left (fun st i => body i st) (seq 0 n) s.

Definition reseedParticles (count : Z) (s : State) : State :=
  let s := with_particleCount count s in
  let needsResize :=
    negb (Z.of_nat (length (Store.posX (store s))) =? count)%Z in
  let s := if needsResize then with_store (Store.alloc (Z.to_nat count)) s else s in
  for_each (Z.to_nat count) seedParticle s.

Definition resetTop (i : nat) (s : State) : State :=
  let s := write (Store.set_posY i (- (Store.size (store s) !!! i))) s in
  let (x, s) := rand 0 (width s) s in
  let s := write (Store.set_posX i x) s in
  let s := write (Store.set_originX i x) s in
  let (p, s) := rand 0 TWO_PI s in
  write (Store.set_dx i p) s.

(** ** Fast trigonometry table lookup *)

(** [scaled | 0] is [ToInt32]; the masks [& (SIN_TABLE_SIZE - 1)] keep the
    low eleven bits, which [Z.land] with 2047 computes on any integer (the
    [ToInt32] that [&] applies first does not touch those bits). *)
Definition fastSin (x : R) : R :=
  let norm := if Rlt_dec x 0 then x + TWO_PI else x in
  let scaled := norm * (IZR SIN_TABLE_SIZE / TWO_PI) in
  let idx := ToInt32 scaled in
  let next := Z.land (idx + 1) (SIN_TABLE_SIZE - 1) in
  let frac := scaled - IZR idx in
  let a := SIN_TABLE (Z.land idx (SIN_TABLE_SIZE - 1)) in
  let b := SIN_TABLE next in
  a + (b - a) * frac.

(** ** Simulation step *)

(** The body of the loop of [update] for particle [i]. *)
Definition updateParticle (dt : R) (height : R) (i : nat) (s : State) : State :=
  let s := write (fun p =>
    Store.set_posY i (Store.posY p !!! i + Store.velY p !!! i * dt) p) s in
  let s := write (fun p =>
    Store.set_dx i (Store.dx p !!! i + Store.velX p !!! i * dt) p) s in
  let s :=
    if Rlt_dec TWO_PI (Store.dx (store s) !!! i)
    then write (fun p => Store.set_dx i (Store.dx p !!! i - TWO_PI) p) s
    else s in
  let s := write (fun p =>
    Store.set_posX i
      (Store.originX p !!! i + Store.amplitude p !!! i * fastSin (Store.dx p !!! i)) p) s in
  if Rlt_dec height (Store.posY (store s) !!! i - Store.size (store s) !!! i)
  then resetTop i s
  else s.

Definition update (dt : R) (s : State) : State :=
  for_each (Z.to_nat (particleCount s)) (updateParticle dt (height s)) s.

(** ** Render step: the [fillRect] calls of one frame, in order *)

Definition Rect : Type := (R * R * R * R)%type.

Definition draw (s : State) : list Rect :=
  map (fun i =>
         (Store.posX (store s) !!! i, Store.posY (store s) !!! i,
          Store.size (store s) !!! i, Store.size (store s) !!! i))
      (seq 0 (Z.to_nat (particleCount s))).

(** ** Resizing and configuration setters *)

Definition resize (width' height' : R) (nextCount : option Z) (s : State) : State :=
  let normalizedWidth := Rmax 1 (IZR (Math_floor width')) in
  let normalizedHeight := Rmax 1 (IZR (Math_floor height')) in
  let dpr' := getTargetDpr s in
  let count := match nextCount with Some n => n | None => particleCount s end in
  let dimensionsChanged :=
    negb (Reqb normalizedWidth (width s)) || negb (Reqb normalizedHeight (height s))
    || negb (Reqb dpr' (dpr s)) in
  let countChanged := negb (count =? particleCount s)%Z in
  let s := with_geometry normalizedWidth normalizedHeight dpr' s in
  if (0 <? count)%Z && (dimensionsChanged || countChanged)
  then reseedParticles count s
  else s.

Definition setAmount (amount : R) (s : State) : State :=
  let next := Z.max 0 (Math_floor amount) in
  let s := with_config (Config.with_amount (IZR next) (config s)) s in
  let count := getDensityAdjustedCount s (width s) (height s) in
  reseedParticles count s.

Definition setMaxParticles (max : R) (s : State) : State :=
  let capped := Z.max 0 (Math_floor max) in
  let s := with_config (Config.with_maxParticles capped (config s)) s in
  let count := getDensityAdjustedCount s (width s) (height s) in
  reseedParticles count s.

(** [resizeToContainer], with the measured client size as arguments. *)
Definition resizeToContainer (clientWidth clientHeight : R) (s : State) : State :=
  let nextCount := getDensityAdjustedCount s clientWidth clientHeight in
  resize clientWidth clientHeight (Some nextCount) s.

(** ** Adaptive performance controller *)

Definition maybeAdjustPerformance (s : State) : State :=
  if (0 <? perfCooldownFrames s)%Z then
    with_perfCooldownFrames (perfCooldownFrames s - 1)%Z s
  else if Rlt_dec 22 (frameTimeAvg s) then
    let loweredDpr := Rmax 1 (Rmin (dpr s) 1.25) in
    let reducedCount :=
      Z.max 200 (Math_floor (IZR (particleCount s) * 0.75)) in
    let needsDprReduce :=
      Rltb loweredDpr (match dprOverride s with Some o => o | None => dpr s end) in
    let needsCountReduce := (reducedCount <? particleCount s)%Z in
    let s := if needsDprReduce then with_dprOverride (Some loweredDpr) s else s in
    if needsDprReduce || needsCountReduce then
      let s := with_perfCooldownFrames 90 s in
      let nextCount :=
        Z.min reducedCount (getDensityAdjustedCount s (width s) (height s)) in
      resize (width s) (height s) (Some nextCount) s
    else s
  else s.

(** ** Frame loop *)

(** One animation-frame callback; the second component is what [draw]
    painted ([clear] only erases the previous frame). *)
Definition loop (t : R) (s : State) : State * list Rect :=
  if negb (running s) then (s, [])
  else
    let frameMs := t - lastTime s in
    let dt := Rmin 0.05 (frameMs / 1000) in
    let s := with_lastTime t s in
    let s := with_frameTimeAvg (frameTimeAvg s * 0.9 + frameMs * 0.1) s in
    let s := update dt s in
    let painted := draw s in
    let s := maybeAdjustPerformance s in
    (s, painted).

(** [start], with the value of [performance.now()] as argument. *)
Definition start (now : R) (s : State) : State * list Rect :=
  if running s then (s, [])
  else
    let s := with_running true s in
    let s := with_lastTime now s in
    loop (lastTime s) s.

Definition stop (s : State) : State := with_running false s.

(** ** Sessions: the calls an instance receives from its host *)

Inductive Event : Type :=
| AnimationFrame (t : R)                      (* requestAnimationFrame callback *)
| Start (now : R)
| Stop
| Resize (width height : R) (nextCount : option Z)
| ContainerResized (clientWidth clientHeight : R)
| SetAmount (amount : R)
| SetMaxParticles (max : R)
| DevicePixelRatioChanged (r : R).            (* the host's scale changes *)

Definition step (e : Event) (s : State) : State :=
  match e with
  | AnimationFrame t => fst (loop t s)
  | Start now => fst (start now s)
  | Stop => stop s
  | Resize w h n => resize w h n s
  | ContainerResized w h => resizeToContainer w h s
  | SetAmount a => setAmount a s
  | SetMaxParticles m => setMaxParticles m s
  | DevicePixelRatioChanged r =>
      with_host (mkHost r (randomOutputs (host s)) (randomCalls (host s))) s
  end.

Definition run (es : list Event) (s : State) : State :=
  fold_left (fun st e => step e st) es s.

(** The arrays are as long as the particle count says. *)
Definition WellFormed (s : State) : Prop :=
  (0 <= particleCount s)%Z /\
  Store.has_length (Z.to_nat (particleCount s)) (store s).

(** The surface is either still the 0 x 0 of a new instance, without
    particles, or at least 1 x 1. *)
Definition SurfaceSized (s : State) : Prop :=
  (width s = 0 /\ height s = 0 /\ particleCount s = 0%Z) \/
  (1 <= width s /\ 1 <= height s).

(** ** The specification's reading of one particle's tick *)

Module Spec.
Record Particle : Type := mkParticle {
  posX : R;
  posY : R;
  originX : R;
  phase : R;
  size : R;
  amplitude : R;
  swingRate : R;
  fallRate : R
}.

(** Steps 1 to 3: fall, advance and wrap the phase once, place on the sine. *)
Definition move (dt : R) (q : Particle) : Particle :=
  let y := posY q + fallRate q * dt in
  let ph := phase q + swingRate q * dt in
  let ph := if Rlt_dec TWO_PI ph then ph - TWO_PI else ph in
  mkParticle (originX q + amplitude q * fastSin ph) y (originX q) ph
             (size q) (amplitude q) (swingRate q) (fallRate q).

(** Step 4: respawn at the top edge with a fresh x and a fresh phase. *)
Definition recycle (x ph : R) (q : Particle) : Particle :=
  mkParticle x (- size q) x ph (size q) (amplitude q) (swingRate q) (fallRate q).

Definition pastBottom (surfaceHeight : R) (q : Particle) : Prop :=
  posY q - size q > surfaceHeight.

(** One tick of one particle; [u1] and [u2] are the two random draws the
    recycle consumes (unused otherwise). *)
Definition advance (dt surfaceHeight surfaceWidth u1 u2 : R) (q : Particle)
  : Particle :=
  let q := move dt q in
  if Rlt_dec surfaceHeight (posY q - size q)
  then recycle (u1 * surfaceWidth) (u2 * TWO_PI) q
  else q.

(** A sample from a configured range: min + random() * (max - min). *)
Definition sample (r : Range) (u : R) : R := fst r + u * (snd r - fst r).

(** A freshly seeded particle, from seven successive random draws starting
    at draw [k]: above the visible area, at rest on its origin. *)
Definition seeded (random : nat -> R) (k : nat) (cfg : Config.SnowConfig)
           (surfaceWidth surfaceHeight : R) : Particle :=
  let x := random k * surfaceWidth in
  mkParticle x (- surfaceHeight + random (1 + k)%nat * surfaceHeight) x
             (random (2 + k)%nat * TWO_PI)
             (sample (Config.size cfg) (random (5 + k)%nat))
             (sample (Config.amplitude cfg) (random (6 + k)%nat))
             (sample (Config.swingSpeed cfg) (random (3 + k)%nat))
             (sample (Config.fallSpeed cfg) (random (4 + k)%nat)).

(** [clamp(x, lo, hi)] *)
Definition clampZ (x lo hi : Z) : Z := Z.max lo (Z.min hi x).
Definition clampR (x lo hi : R) : R := Rmax lo (Rmin hi x).

(** Section 4.2: target particle count for an effective density scale. *)
Definition targetCount (width height amount : R) (maxParticles : Z)
           (effectiveDensityScale : R) : Z :=
  clampZ (Zfloor (amount / (1920 * 1080) * width * height
                   * (1 / effectiveDensityScale)))
         0 maxParticles.
End Spec.

(** Particle [i] of the store, as the specification sees it. *)
Definition particleAt (p : Store.t) (i : nat) : Spec.Particle :=
  Spec.mkParticle
    (Store.posX p !!! i) (Store.posY p !!! i) (Store.originX p !!! i)
    (Store.dx p !!! i) (Store.size p !!! i) (Store.amplitude p !!! i)
    (Store.velX p !!! i) (Store.velY p !!! i).

(** Everything but the particle arrays and the count of random draws. *)
Definition controls (s : State) : State :=
  with_store Store.empty
    (with_host (mkHost (devicePixelRatio (host s)) (randomOutputs (host s)) 0) s).

(** ** Per-particle constants stay within the configured ranges *)

Definition within (r : Range) (x : R) : Prop := fst r <= x <= snd r.

Definition ordered (r : Range) : Prop := fst r <= snd r.

Definition OrderedRanges (cfg : Config.SnowConfig) : Prop :=
  ordered (Config.size cfg) /\ ordered (Config.amplitude cfg) /\
  ordered (Config.swingSpeed cfg) /\ ordered (Config.fallSpeed cfg).

Definition InRanges (cfg : Config.SnowConfig) (q : Spec.Particle) : Prop :=
  within (Config.size cfg) (Spec.size q) /\
  within (Config.amplitude cfg) (Spec.amplitude q) /\
  within (Config.swingSpeed cfg) (Spec.swingRate q) /\
  within (Config.fallSpeed cfg) (Spec.fallRate q).

(** Two configurations with the same four ranges. *)
Definition sameRanges (c c' : Config.SnowConfig) : Prop :=
  Config.size c = Config.size c' /\ Config.amplitude c = Config.amplitude c' /\
  Config.swingSpeed c = Config.swingSpeed c' /\
  Config.fallSpeed c = Config.fallSpeed c'.

(** What a session maintains for the configuration [cfg] it started with. *)
Definition Seeded (cfg : Config.SnowConfig) (s : State) : Prop :=
  WellFormed s /\ sameRanges (config s) cfg /\
  (forall n, 0 <= randomOutputs (host s) n < 1) /\
  forall i, (i < Z.to_nat (particleCount s))%nat ->
            InRanges cfg (particleAt (store s) i).

(** ** The specification's reading of the sine lookup *)

Module SineSpec.
(** Distance between two table samples. *)
Definition sampleStep : R := 2 * PI / 2048.

(** Sample [i] of the table, indices taken modulo the table size. *)
Definition sample (i : Z) : R := sin (IZR (i mod 2048) * sampleStep).



End SineSpec.


(** ** Order on the scale override: no override is the least restrictive *)

Definition overrideNotAbove (new old : option R) : Prop :=
  match old, new with
  | None, _ => True
  | Some _, None => False
  | Some a, Some b => b <= a
  end.

(** [this.dprOverride ?? this.dpr] *)
Definition effectiveOverride (s : State) : R :=
  match dprOverride s with Some o => o | None => dpr s end.

(** ** Sample instances used to exercise the statements *)

Definition singleParticle (q : Spec.Particle) : Store.t :=
  Store.mk [Spec.posX q] [Spec.posY q] [Spec.originX q] [Spec.phase q]
           [Spec.size q] [Spec.amplitude q] [Spec.swingRate q] [Spec.fallRate q].

Definition sampleHost : Host := mkHost 1 (fun _ => 1 / 2) 0.








(** ** Sample sessions *)

(** A new instance with the default configuration on a host of scale 1. *)
Definition freshInstance : State := construct defaultConfig sampleHost.

(** Its container measures 1920 x 1080 at [init]. *)
Definition filled : State := step (ContainerResized 1920 1080) freshInstance.

(** The container then collapses to 0 x 0 and the animation is started. *)
Definition collapsed : State :=
  run [ContainerResized 1920 1080; ContainerResized 0 0; Start 0] freshInstance.

(** The container instead shrinks to 20 x 20 and the animation is started. *)
Definition shrunk : State :=
  run [ContainerResized 1920 1080; ContainerResized 20 20; Start 0] freshInstance.

(** The controls of an instance of the default configuration on the sample
    host, with no scale override. *)
Definition snapshot (running : bool) (lastTime width height dpr : R)
           (particleCount : Z) (frameTimeAvg : R) (perfCooldownFrames : Z) : State :=
  mkState running lastTime width height dpr particleCount Store.empty
          frameTimeAvg perfCooldownFrames None defaultConfig sampleHost.

(** What every seeded particle of [filled] looks like (all draws are 1/2). *)
Definition seededHalf : Spec.Particle :=
  Spec.mkParticle 960 (-540) 960 (TWO_PI / 2) 1 37.5 0.55 70.

(** The same particle after the first tick of [start], which has dt = 0:
    placed on the sine, otherwise as seeded. *)
Definition settledHalf : Spec.Particle := Spec.move 0 seededHalf.

(** A running instance on a host of scale 2 whose frames take 30 ms. *)
Definition straining : State :=
  mkState true 0 1920 1080 2 1 (singleParticle seededHalf) 30 0 None
          defaultConfig (mkHost 2 (fun _ => 1 / 2) 0).

(** * Properties *)

(** ** Numbers *)

Lemma Rleb_true_iff x y : Rleb x y = true <-> x <= y.
Proof. unfold Rleb. destruct (Rle_dec x y); split; intros; (congruence || lra). Qed.

Lemma Rleb_false_iff x y : Rleb x y = false <-> y < x.
Proof. unfold Rleb. destruct (Rle_dec x y); split; intros; (congruence || lra). Qed.

Lemma Rltb_true_iff x y : Rltb x y = true <-> x < y.
Proof. unfold Rltb. destruct (Rlt_dec x y); split; intros; (congruence || lra). Qed.

Lemma Rltb_false_iff x y : Rltb x y = false <-> y <= x.
Proof. unfold Rltb. destruct (Rlt_dec x y); split; intros; (congruence || lra). Qed.

Lemma Reqb_true_iff x y : Reqb x y = true <-> x = y.
Proof. unfold Reqb. destruct (Req_dec_T x y); split; intros; congruence. Qed.

Lemma Math_floor_IZR (z : Z) : Math_floor (IZR z) = z.
Proof. apply Zfloor_eq. lra. Qed.

(** ** Density model *)

Lemma getDensityAdjustedCount_degenerate s w h :
  w <= 0 \/ h <= 0 -> getDensityAdjustedCount s w h = 0%Z.
Proof.
  intros H. unfold getDensityAdjustedCount.
  destruct H as [H | H]; apply Rleb_true_iff in H; rewrite H;
    [reflexivity | now rewrite orb_true_r].
Qed.

Lemma getDensityAdjustedCount_positive s w h :
  0 < w -> 0 < h ->
  getDensityAdjustedCount s w h =
  Spec.targetCount w h (Config.amount (config s)) (Config.maxParticles (config s))
                   (getTargetDpr s).
Proof.
  intros Hw Hh. unfold getDensityAdjustedCount.
  apply Rleb_false_iff in Hw, Hh. rewrite Hw, Hh. reflexivity.
Qed.

Lemma getDensityAdjustedCount_nonneg s w h :
  (0 <= getDensityAdjustedCount s w h)%Z.
Proof.
  unfold getDensityAdjustedCount.
  destruct (Rleb w 0 || Rleb h 0); lia.
Qed.


(** The default configuration on a host of scale 1, before any override. *)
Lemma getTargetDpr_default h :
  devicePixelRatio h = 1 -> getTargetDpr (construct defaultConfig h) = 1.
Proof.
  intros H. unfold getTargetDpr. cbn. rewrite H.
  destruct (Req_dec_T 1 0); [lra|].
  rewrite Rmax_left by lra. rewrite Rmin_right by lra. reflexivity.
Qed.

Lemma targetCount_full_hd : Spec.targetCount 1920 1080 5000 4000 1 = 4000%Z.
Proof.
  unfold Spec.targetCount, Spec.clampZ.
  replace (5000 / (1920 * 1080) * 1920 * 1080 * (1 / 1)) with (IZR 5000)
    by (simpl; field).
  fold (Math_floor (IZR 5000)). rewrite Math_floor_IZR. reflexivity.
Qed.



(** ** Monotonicity of the density model *)








(** ** What the array writes leave alone *)

Lemma controls_updateParticle dt h i s :
  controls (updateParticle dt h i s) = controls s.
Proof.
  unfold updateParticle.
  repeat match goal with |- context [if ?c then _ else _] => destruct c end;
    reflexivity.
Qed.

Lemma controls_seedParticle i s : controls (seedParticle i s) = controls s.
Proof. reflexivity. Qed.

Lemma controls_for_each n body s :
  (forall i st, controls (body i st) = controls st) ->
  controls (for_each n body s) = controls s.
Proof.
  intros Hbody. unfold for_each. generalize (seq 0 n) as l. intros l.
  revert s. induction l as [|i l IH]; intros s; [reflexivity|].
  cbn. rewrite IH. apply Hbody.
Qed.

Lemma controls_update dt s : controls (update dt s) = controls s.
Proof. apply controls_for_each. intros. apply controls_updateParticle. Qed.

(** Reading the fields back from [controls]. *)
Lemma controls_fields s s' :
  controls s' = controls s ->
  running s' = running s /\ lastTime s' = lastTime s /\
  width s' = width s /\ height s' = height s /\ dpr s' = dpr s /\
  particleCount s' = particleCount s /\ frameTimeAvg s' = frameTimeAvg s /\
  perfCooldownFrames s' = perfCooldownFrames s /\
  dprOverride s' = dprOverride s /\ config s' = config s /\
  devicePixelRatio (host s') = devicePixelRatio (host s) /\
  randomOutputs (host s') = randomOutputs (host s).
Proof.
  intros H. destruct s, s'. unfold controls in H. cbn in *.
  injection H. intros. subst. repeat split; tauto.
Qed.

(** ** The loop body on the store *)

Ltac list_simpl :=
  repeat first
    [ rewrite list_lookup_total_insert_eq by (rewrite ?length_insert; lia)
    | rewrite list_lookup_total_insert_ne by congruence
    | rewrite length_insert ].

Lemma rand_from_zero u m : u * (m - 0) + 0 = u * m.
Proof. ring. Qed.

Lemma updateParticle_at dt h i s n :
  Store.has_length n (store s) -> (i < n)%nat ->
  particleAt (store (updateParticle dt h i s)) i =
  Spec.advance dt h (width s)
    (randomOutputs (host s) (randomCalls (host s)))
    (randomOutputs (host s) (S (randomCalls (host s))))
    (particleAt (store s) i).
Proof.
  intros Hlen Hi. destruct s as [? ? ? ? ? ? st ? ? ? ? hst].
  destruct st as [pX pY oX ph sz am vX vY].
  destruct Hlen as (H1 & H2 & H3 & H4 & H5 & H6 & H7 & H8). cbn in *.
  unfold updateParticle, Spec.advance, Spec.move, particleAt, write. cbn.
  list_simpl.
  destruct (Rlt_dec TWO_PI (ph !!! i + vX !!! i * dt)) as [Hwrap | Hwrap];
    cbn; list_simpl;
    (destruct (Rlt_dec h (pY !!! i + vY !!! i * dt - sz !!! i)) as [Hrec | Hrec];
     [ unfold resetTop, Spec.recycle, write, rand, Math_random; cbn; list_simpl;
       rewrite !rand_from_zero; reflexivity
     | cbn; list_simpl; reflexivity ]).
Qed.

Lemma updateParticle_other dt h i j s :
  i <> j ->
  particleAt (store (updateParticle dt h i s)) j = particleAt (store s) j.
Proof.
  intros Hij. destruct s as [? ? ? ? ? ? st ? ? ? ? hst].
  destruct st as [pX pY oX ph sz am vX vY].
  unfold updateParticle, particleAt, write. cbn.
  repeat match goal with |- context [if ?c then _ else _] => destruct c end;
    unfold resetTop, write, rand, Math_random; cbn; list_simpl; reflexivity.
Qed.

Lemma updateParticle_length dt h i s n :
  Store.has_length n (store s) ->
  Store.has_length n (store (updateParticle dt h i s)).
Proof.
  destruct s as [? ? ? ? ? ? st ? ? ? ? hst].
  destruct st as [pX pY oX ph sz am vX vY].
  unfold Store.has_length, updateParticle, write. cbn.
  repeat match goal with |- context [if ?c then _ else _] => destruct c end;
    unfold resetTop, write, rand, Math_random; cbn;
    rewrite !length_insert; tauto.
Qed.

(** ** The whole loop of [update] *)

Section ForEachParticle.
Variable body : nat -> State -> State.
Variable effect : State -> nat -> Spec.Particle -> Spec.Particle.

Hypothesis body_controls : forall i s, controls (body i s) = controls s.
Hypothesis body_length :
  forall i s n, Store.has_length n (store s) ->
                Store.has_length n (store (body i s)).
Hypothesis body_other :
  forall i j s, i <> j ->
                particleAt (store (body i s)) j = particleAt (store s) j.
Hypothesis body_at :
  forall i s n, Store.has_length n (store s) -> (i < n)%nat ->
    particleAt (store (body i s)) i =
    effect (controls s) (randomCalls (host s)) (particleAt (store s) i).

Lemma fold_particles (l : list nat) :
  NoDup l ->
  forall s n,
    Store.has_length n (store s) ->
    (forall i, In i l -> (i < n)%nat) ->
    let s' := fold_left (fun st i => body i st) l s in
    Store.has_length n (store s') /\
    controls s' = controls s /\
    (forall i, ~ In i l -> particleAt (store s') i = particleAt (store s) i) /\
    (forall i, In i l ->
       exists k,
         particleAt (store s') i = effect (controls s) k (particleAt (store s) i)).
Proof.
  induction 1 as [|x l Hx Hnd IH]; intros s n Hlen Hin; cbn.
  - split; [exact Hlen|]. split; [reflexivity|].
    split; [reflexivity|]. intros i [].
  - set (s1 := body x s).
    assert (Hlen1 : Store.has_length n (store s1)) by now apply body_length.
    assert (Hc1 : controls s1 = controls s) by apply body_controls.
    destruct (IH s1 n Hlen1) as (Hl & Hc & Hout & Hin').
    { intros i Hi. apply Hin. now right. }
    split; [|split; [|split]].
    + exact Hl.
    + now rewrite Hc.
    + intros i Hi. rewrite Hout by (intros ?; apply Hi; now right).
      apply body_other. intros ->. apply Hi. now left.
    + intros i [-> | Hi].
      * rewrite Hout by (rewrite <- list_elem_of_In; exact Hx).
        exists (randomCalls (host s)).
        apply (body_at i s n Hlen). apply Hin. now left.
      * destruct (Hin' i Hi) as [k Hk]. exists k.
        rewrite Hk, Hc1. f_equal.
        apply body_other. intros ->. apply Hx.
        now rewrite list_elem_of_In.
Qed.

Lemma for_each_particles n s :
  Store.has_length n (store s) ->
  let s' := for_each n body s in
  Store.has_length n (store s') /\
  controls s' = controls s /\
  forall i, (i < n)%nat ->
    exists k,
      particleAt (store s') i = effect (controls s) k (particleAt (store s) i).
Proof.
  intros Hlen.
  destruct (fold_particles (seq 0 n) (NoDup_seq _ _) s n Hlen)
    as (Hl & Hc & _ & Hin).
  { intros i Hi. apply in_seq in Hi. lia. }
  split; [exact Hl|]. split; [exact Hc|].
  intros i Hi. apply Hin. apply in_seq. lia.
Qed.
End ForEachParticle.

Lemma update_spec dt s :
  WellFormed s ->
  WellFormed (update dt s) /\
  controls (update dt s) = controls s /\
  forall i, (i < Z.to_nat (particleCount s))%nat ->
    exists k,
      particleAt (store (update dt s)) i =
      Spec.advance dt (height s) (width s)
        (randomOutputs (host s) k) (randomOutputs (host s) (S k))
        (particleAt (store s) i).
Proof.
  intros [Hn Hlen].
  destruct (for_each_particles
              (updateParticle dt (height s))
              (fun c k q =>
                 Spec.advance dt (height s) (width c)
                   (randomOutputs (host c) k) (randomOutputs (host c) (S k)) q)
              (controls_updateParticle dt (height s))
              (updateParticle_length dt (height s))
              (updateParticle_other dt (height s))
              (updateParticle_at dt (height s))
              _ s Hlen) as (Hl & Hc & Hat).
  fold (update dt s) in *.
  destruct (controls_fields _ _ Hc) as (_ & _ & _ & _ & _ & Hpc & _).
  split; [|split].
  - unfold WellFormed. now rewrite Hpc.
  - exact Hc.
  - exact Hat.
Qed.

(** The frame callback of a running instance, step by step. *)
Lemma loop_running t s :
  running s = true ->
  let frameMs := t - lastTime s in
  let dt := Rmin 0.05 (frameMs / 1000) in
  let s1 :=
    with_frameTimeAvg (frameTimeAvg s * 0.9 + frameMs * 0.1) (with_lastTime t s) in
  loop t s = (maybeAdjustPerformance (update dt s1), draw (update dt s1)).
Proof. intros H. unfold loop. rewrite H. reflexivity. Qed.



(** ** Recycling *)


Lemma advance_kept dt h w u1 u2 q :
  ~ Spec.pastBottom h (Spec.move dt q) ->
  Spec.advance dt h w u1 u2 q = Spec.move dt q.
Proof.
  unfold Spec.pastBottom, Spec.advance. intros H.
  destruct (Rlt_dec h (Spec.posY (Spec.move dt q) - Spec.size (Spec.move dt q)));
    [exfalso; apply H; lra | reflexivity].
Qed.




(** C8. Recycling particle [i] writes only posY, posX, originX and the phase
    at index [i]: the size, amplitude, swing-rate and fall-rate arrays are
    unchanged, and so is every field of every other particle. *)
Theorem recycle_frame (s : State) (i : nat) :
  let s' := resetTop i s in
  Store.size (store s') = Store.size (store s) /\
  Store.amplitude (store s') = Store.amplitude (store s) /\
  Store.velX (store s') = Store.velX (store s) /\
  Store.velY (store s') = Store.velY (store s) /\
  (forall j, j <> i -> particleAt (store s') j = particleAt (store s) j) /\
  Spec.size (particleAt (store s') i) = Spec.size (particleAt (store s) i) /\
  Spec.amplitude (particleAt (store s') i) = Spec.amplitude (particleAt (store s) i) /\
  Spec.swingRate (particleAt (store s') i) = Spec.swingRate (particleAt (store s) i) /\
  Spec.fallRate (particleAt (store s') i) = Spec.fallRate (particleAt (store s) i).
Proof.
  destruct s as [? ? ? ? ? ? st ? ? ? ? hst].
  destruct st as [pX pY oX ph sz am vX vY].
  cbn. repeat split.
  intros j Hj. unfold particleAt. cbn. list_simpl. reflexivity.
Qed.

(** ** The sine lookup *)










(** ** Elementary bounds on sine and cosine *)












(** ** The lookup outside its range *)











(** ** Phase range *)









(** ** The statements on the sample instances *)



(** ** Re-seeding and resizing *)

Lemma seedParticle_length i s n :
  Store.has_length n (store s) -> Store.has_length n (store (seedParticle i s)).
Proof.
  destruct s as [? ? ? ? ? ? st ? ? ? ? hst].
  destruct st as [pX pY oX ph sz am vX vY].
  unfold Store.has_length. cbn. rewrite !length_insert. tauto.
Qed.

Lemma for_each_length n body s m :
  (forall i st, Store.has_length m (store st) ->
                Store.has_length m (store (body i st))) ->
  Store.has_length m (store s) ->
  Store.has_length m (store (for_each n body s)).
Proof.
  intros Hbody. unfold for_each. generalize (seq 0 n) as l. intros l.
  revert s. induction l as [|i l IH]; intros s Hs; [exact Hs|].
  cbn. apply IH. now apply Hbody.
Qed.

Lemma alloc_length n : Store.has_length n (Store.alloc n).
Proof. unfold Store.has_length, Store.alloc. cbn. rewrite length_replicate. tauto. Qed.

Lemma controls_reseedParticles count s :
  controls (reseedParticles count s) = controls (with_particleCount count s).
Proof.
  unfold reseedParticles. rewrite controls_for_each.
  - destruct (negb _); reflexivity.
  - intros. apply controls_seedParticle.
Qed.

Lemma particleCount_reseedParticles count s :
  particleCount (reseedParticles count s) = count.
Proof.
  destruct (controls_fields _ _ (controls_reseedParticles count s))
    as (_ & _ & _ & _ & _ & H & _).
  exact H.
Qed.

Lemma reseedParticles_WellFormed count s :
  (0 <= count)%Z -> WellFormed s -> WellFormed (reseedParticles count s).
Proof.
  intros Hc [_ Hlen]. split; rewrite particleCount_reseedParticles; [exact Hc|].
  unfold reseedParticles. apply for_each_length.
  - intros. now apply seedParticle_length.
  - cbn. destruct (Z.eqb_spec (Z.of_nat (length (Store.posX (store s)))) count)
      as [Heq | Hne]; cbn.
    + assert (Hn : Z.to_nat count = Z.to_nat (particleCount s)).
      { destruct Hlen as (H1 & _). rewrite <- Heq, Nat2Z.id. exact H1. }
      rewrite Hn. exact Hlen.
    + apply alloc_length.
Qed.

(** What [resize] does, by cases on its re-seeding guard. *)
Lemma resize_cases w h n s :
  let s1 :=
    with_geometry (Rmax 1 (IZR (Math_floor w))) (Rmax 1 (IZR (Math_floor h)))
                  (getTargetDpr s) s in
  let count := match n with Some c => c | None => particleCount s end in
  (resize w h n s = s1 /\
   ((count <= 0)%Z \/ count = particleCount s)) \/
  (resize w h n s = reseedParticles count s1 /\ (0 < count)%Z).
Proof.
  cbn zeta. unfold resize.
  set (count := match n with Some c => c | None => particleCount s end).
  destruct (Z.ltb_spec 0 count) as [Hpos | Hnp]; cbn [andb].
  - destruct (_ || _) eqn:Hg; [right; now split|].
    left. split; [reflexivity|]. right.
    apply orb_false_elim in Hg as [_ Hg].
    apply negb_false_iff, Z.eqb_eq in Hg. exact Hg.
  - left. split; [reflexivity | left; lia].
Qed.

Lemma resize_zero w h s :
  resize w h (Some 0%Z) s =
  with_geometry (Rmax 1 (IZR (Math_floor w))) (Rmax 1 (IZR (Math_floor h)))
                (getTargetDpr s) s.
Proof. reflexivity. Qed.

Lemma reseedParticles_keeps count s :
  let s' := reseedParticles count s in
  dprOverride s' = dprOverride s /\ config s' = config s /\
  devicePixelRatio (host s') = devicePixelRatio (host s) /\
  frameTimeAvg s' = frameTimeAvg s /\
  perfCooldownFrames s' = perfCooldownFrames s /\
  width s' = width s /\ height s' = height s /\ dpr s' = dpr s.
Proof.
  destruct (controls_fields _ _ (controls_reseedParticles count s))
    as (_ & _ & Hw & Hh & Hd & _ & Ha & Hc & Ho & Hcfg & Hp & _).
  cbn in *. tauto.
Qed.

Lemma resize_keeps w h n s :
  let s' := resize w h n s in
  dprOverride s' = dprOverride s /\ config s' = config s /\
  devicePixelRatio (host s') = devicePixelRatio (host s) /\
  frameTimeAvg s' = frameTimeAvg s /\
  perfCooldownFrames s' = perfCooldownFrames s /\
  width s' = Rmax 1 (IZR (Math_floor w)) /\
  height s' = Rmax 1 (IZR (Math_floor h)) /\
  dpr s' = getTargetDpr s.
Proof.
  cbn zeta.
  destruct (resize_cases w h n s) as [[-> _] | [-> _]].
  - cbn. tauto.
  - pose proof (reseedParticles_keeps
                  (match n with Some c => c | None => particleCount s end)
                  (with_geometry (Rmax 1 (IZR (Math_floor w)))
                     (Rmax 1 (IZR (Math_floor h))) (getTargetDpr s) s)) as H.
    cbn in H. tauto.
Qed.

Lemma resize_WellFormed w h n s :
  WellFormed s -> WellFormed (resize w h n s).
Proof.
  intros Hwf. destruct (resize_cases w h n s) as [[-> _] | [-> Hpos]].
  - exact Hwf.
  - apply reseedParticles_WellFormed; [lia | exact Hwf].
Qed.

Lemma update_keeps dt s :
  let s' := update dt s in
  dprOverride s' = dprOverride s /\ config s' = config s /\
  devicePixelRatio (host s') = devicePixelRatio (host s) /\
  frameTimeAvg s' = frameTimeAvg s /\
  perfCooldownFrames s' = perfCooldownFrames s /\
  width s' = width s /\ height s' = height s /\ dpr s' = dpr s /\
  particleCount s' = particleCount s.
Proof.
  destruct (controls_fields _ _ (controls_update dt s))
    as (_ & _ & Hw & Hh & Hd & Hn & Ha & Hc & Ho & Hcfg & Hp & _).
  cbn. tauto.
Qed.

(** ** The controller, case by case *)

Lemma maybeAdjustPerformance_cooldown s :
  (0 < perfCooldownFrames s)%Z ->
  maybeAdjustPerformance s =
  with_perfCooldownFrames (perfCooldownFrames s - 1) s.
Proof.
  intros H. unfold maybeAdjustPerformance.
  apply Z.ltb_lt in H. now rewrite H.
Qed.

Lemma maybeAdjustPerformance_calm s :
  (perfCooldownFrames s <= 0)%Z -> frameTimeAvg s <= 22 ->
  maybeAdjustPerformance s = s.
Proof.
  intros H Ha. unfold maybeAdjustPerformance.
  apply Z.ltb_ge in H. rewrite H.
  destruct (Rlt_dec 22 (frameTimeAvg s)); [lra | reflexivity].
Qed.

Lemma clampR_scale d : Rmax 1 (Rmin d 1.25) = Spec.clampR d 1 1.25.
Proof. unfold Spec.clampR. now rewrite (Rmin_comm d). Qed.

Lemma maybeAdjustPerformance_slow s :
  (perfCooldownFrames s <= 0)%Z -> 22 < frameTimeAvg s ->
  let loweredDpr := Spec.clampR (dpr s) 1 1.25 in
  let reducedCount := Z.max 200 (Zfloor (IZR (particleCount s) * 0.75)) in
  let needsDprReduce := Rltb loweredDpr (effectiveOverride s) in
  let needsCountReduce := (reducedCount <? particleCount s)%Z in
  let s1 := if needsDprReduce then with_dprOverride (Some loweredDpr) s else s in
  let s2 := with_perfCooldownFrames 90 s1 in
  let nextCount :=
    Z.min reducedCount (getDensityAdjustedCount s2 (width s) (height s)) in
  maybeAdjustPerformance s =
  if needsDprReduce || needsCountReduce
  then resize (width s) (height s) (Some nextCount) s2
  else s.
Proof.
  intros H Ha. cbn zeta. unfold maybeAdjustPerformance.
  apply Z.ltb_ge in H. rewrite H.
  destruct (Rlt_dec 22 (frameTimeAvg s)); [|lra].
  rewrite <- clampR_scale. unfold effectiveOverride, Math_floor.
  set (lowered := Rmax 1 (Rmin (dpr s) 1.25)).
  set (eff := match dprOverride s with Some o => o | None => dpr s end).
  destruct (Rltb lowered eff); reflexivity.
Qed.

(** ** The scale override only goes down *)

Lemma overrideNotAbove_refl o : overrideNotAbove o o.
Proof. destruct o; cbn; [lra | exact I]. Qed.

Lemma overrideNotAbove_trans a b c :
  overrideNotAbove a b -> overrideNotAbove b c -> overrideNotAbove a c.
Proof. destruct a, b, c; cbn; intros; try tauto; lra. Qed.

Lemma maybeAdjustPerformance_override s :
  dprOverride (maybeAdjustPerformance s) = dprOverride s \/
  (dprOverride (maybeAdjustPerformance s) = Some (Spec.clampR (dpr s) 1 1.25) /\
   Spec.clampR (dpr s) 1 1.25 < effectiveOverride s).
Proof.
  destruct (Z.lt_ge_cases 0 (perfCooldownFrames s)) as [Hcd | Hcd].
  { rewrite maybeAdjustPerformance_cooldown by exact Hcd. now left. }
  destruct (Rlt_dec 22 (frameTimeAvg s)) as [Hslow | Hcalm].
  2:{ rewrite maybeAdjustPerformance_calm by (lia || lra). now left. }
  rewrite maybeAdjustPerformance_slow by (lia || lra). cbn zeta.
  set (lowered := Spec.clampR (dpr s) 1 1.25).
  destruct (Rltb lowered (effectiveOverride s)) eqn:Hd; cbn [orb].
  - right. apply Rltb_true_iff in Hd. split; [|exact Hd].
    match goal with |- dprOverride (resize ?w ?h ?n ?st) = _ =>
      destruct (resize_keeps w h n st) as (-> & _) end.
    reflexivity.
  - left. destruct (_ <? _)%Z; [|reflexivity].
    match goal with |- dprOverride (resize ?w ?h ?n ?st) = _ =>
      destruct (resize_keeps w h n st) as (-> & _) end.
    reflexivity.
Qed.

Lemma loop_override t s :
  dprOverride (fst (loop t s)) = dprOverride s \/
  (dprOverride (fst (loop t s)) = Some (Spec.clampR (dpr s) 1 1.25) /\
   Spec.clampR (dpr s) 1 1.25 < effectiveOverride s).
Proof.
  unfold loop. destruct (running s); cbn [negb fst]; [|now left].
  set (dt := Rmin 0.05 ((t - lastTime s) / 1000)).
  set (s1 := with_frameTimeAvg _ _).
  destruct (update_keeps dt s1) as (Ho & _ & _ & _ & _ & _ & _ & Hd & _).
  change (dprOverride s1) with (dprOverride s) in Ho.
  change (dpr s1) with (dpr s) in Hd.
  destruct (maybeAdjustPerformance_override (update dt s1)) as [H | [H1 H2]].
  - left. now rewrite H.
  - right. unfold effectiveOverride in *. rewrite Hd, Ho in *. now split.
Qed.

Lemma step_override e s :
  dprOverride (step e s) = dprOverride s \/
  exists v, dprOverride (step e s) = Some v /\ v < effectiveOverride s.
Proof.
  destruct e; cbn [step].
  - destruct (loop_override t s) as [H | [H1 H2]]; [now left | right; eauto].
  - unfold start. destruct (running s); [now left|].
    match goal with |- context [loop ?t ?st] =>
      destruct (loop_override t st) as [H | [H1 H2]] end;
      [now left | right; eauto].
  - now left.
  - left. apply resize_keeps.
  - left. apply resize_keeps.
  - left. unfold setAmount.
    match goal with |- dprOverride (reseedParticles ?c ?st) = _ =>
      destruct (reseedParticles_keeps c st) as (-> & _) end.
    reflexivity.
  - left. unfold setMaxParticles.
    match goal with |- dprOverride (reseedParticles ?c ?st) = _ =>
      destruct (reseedParticles_keeps c st) as (-> & _) end.
    reflexivity.
  - now left.
Qed.

Lemma step_overrideNotAbove e s :
  overrideNotAbove (dprOverride (step e s)) (dprOverride s).
Proof.
  destruct (step_override e s) as [-> | (v & -> & Hv)].
  - apply overrideNotAbove_refl.
  - unfold effectiveOverride in Hv. destruct (dprOverride s); cbn; [lra | exact I].
Qed.

Lemma run_overrideNotAbove es s :
  overrideNotAbove (dprOverride (run es s)) (dprOverride s).
Proof.
  revert s. induction es as [|e es IH]; intros s; cbn.
  - apply overrideNotAbove_refl.
  - eapply overrideNotAbove_trans; [apply IH | apply step_overrideNotAbove].
Qed.

Lemma getTargetDpr_bound s :
  getTargetDpr s
  <= Rmin (Config.dprCap (config s)) (Rmax 1 (devicePixelRatio (host s))).
Proof.
  unfold getTargetDpr.
  set (raw := if Req_dec_T (devicePixelRatio (host s)) 0 then 1
              else devicePixelRatio (host s)).
  assert (Hraw : Rmax 1 raw = Rmax 1 (devicePixelRatio (host s))).
  { unfold raw. destruct (Req_dec_T (devicePixelRatio (host s)) 0) as [-> | _];
      [|reflexivity].
    now rewrite !Rmax_left by lra. }
  rewrite Hraw.
  apply Rmin_glb; [apply Rmin_l|].
  eapply Rle_trans; [apply Rmin_r|].
  destruct (dprOverride s); [apply Rmin_l | lra].
Qed.

(** C5. Along any sequence of calls the scale override never goes up and is
    never cleared; a call that changes it assigns a value strictly below
    [dprOverride ?? dpr]; and the effective scale is at most
    min(dprCap, max(1, devicePixelRatio)). *)
Theorem scale_ratchet (es : list Event) (s : State) :
  overrideNotAbove (dprOverride (run es s)) (dprOverride s) /\
  (forall e, dprOverride (step e s) <> dprOverride s ->
     exists v, dprOverride (step e s) = Some v /\ v < effectiveOverride s) /\
  getTargetDpr (run es s)
  <= Rmin (Config.dprCap (config (run es s)))
          (Rmax 1 (devicePixelRatio (host (run es s)))).
Proof.
  split; [apply run_overrideNotAbove|]. split; [|apply getTargetDpr_bound].
  intros e Hne. destruct (step_override e s) as [H | H]; [contradiction | exact H].
Qed.

(** ** Seeding *)

Lemma seedParticle_at i s n :
  Store.has_length n (store s) -> (i < n)%nat ->
  particleAt (store (seedParticle i s)) i =
  Spec.seeded (randomOutputs (host s)) (randomCalls (host s)) (config s)
              (width s) (height s).
Proof.
  intros Hlen Hi. destruct s as [? ? ? ? ? ? st ? ? ? ? hst].
  destruct st as [pX pY oX ph sz am vX vY].
  destruct Hlen as (H1 & H2 & H3 & H4 & H5 & H6 & H7 & H8). cbn in *.
  unfold particleAt, Spec.seeded, Spec.sample. cbn. list_simpl.
  f_equal; ring.
Qed.

Lemma seedParticle_other i j s :
  i <> j ->
  particleAt (store (seedParticle i s)) j = particleAt (store s) j.
Proof.
  intros Hij. destruct s as [? ? ? ? ? ? st ? ? ? ? hst].
  destruct st as [pX pY oX ph sz am vX vY].
  unfold particleAt. cbn. list_simpl. reflexivity.
Qed.

Lemma reseedParticles_spec count s :
  (0 <= count)%Z -> WellFormed s ->
  forall i, (i < Z.to_nat count)%nat ->
    exists k,
      particleAt (store (reseedParticles count s)) i =
      Spec.seeded (randomOutputs (host s)) k (config s) (width s) (height s).
Proof.
  intros Hc Hwf i Hi. unfold reseedParticles.
  set (s1 := if negb _ then _ else _).
  assert (Hlen : Store.has_length (Z.to_nat count) (store s1)).
  { unfold s1. cbn.
    destruct (Z.eqb_spec (Z.of_nat (length (Store.posX (store s)))) count)
      as [Heq | Hne]; cbn; [|apply alloc_length].
    destruct Hwf as [_ Hlen].
    assert (Hn : Z.to_nat count = Z.to_nat (particleCount s)).
    { destruct Hlen as (H1 & _). rewrite <- Heq, Nat2Z.id. exact H1. }
    rewrite Hn. exact Hlen. }
  destruct (for_each_particles seedParticle
              (fun c k _ =>
                 Spec.seeded (randomOutputs (host c)) k (config c)
                             (width c) (height c))
              controls_seedParticle seedParticle_length seedParticle_other
              seedParticle_at _ s1 Hlen) as (_ & _ & Hat).
  destruct (Hat i Hi) as [k Hk]. exists k. rewrite Hk.
  unfold s1. destruct (negb _); reflexivity.
Qed.

(** ** Well-formedness is an invariant of a session *)

Lemma construct_WellFormed cfg h : WellFormed (construct cfg h).
Proof. split; [cbn; lia | cbn; repeat split]. Qed.

Lemma maybeAdjustPerformance_WellFormed s :
  WellFormed s -> WellFormed (maybeAdjustPerformance s).
Proof.
  intros Hwf. unfold maybeAdjustPerformance.
  destruct (0 <? perfCooldownFrames s)%Z; [exact Hwf|].
  destruct (Rlt_dec 22 (frameTimeAvg s)); [|exact Hwf].
  destruct (Rltb _ _); cbn [orb].
  - apply resize_WellFormed. exact Hwf.
  - destruct (_ <? _)%Z; [|exact Hwf]. apply resize_WellFormed. exact Hwf.
Qed.

Lemma loop_WellFormed t s : WellFormed s -> WellFormed (fst (loop t s)).
Proof.
  intros Hwf. unfold loop. destruct (running s); cbn [negb fst]; [|exact Hwf].
  apply maybeAdjustPerformance_WellFormed.
  match goal with |- WellFormed (update ?dt ?st) =>
    apply (update_spec dt st) end.
  exact Hwf.
Qed.

Lemma step_WellFormed e s : WellFormed s -> WellFormed (step e s).
Proof.
  intros Hwf. destruct e; cbn [step].
  - now apply loop_WellFormed.
  - unfold start. destruct (running s); [exact Hwf|]. now apply loop_WellFormed.
  - exact Hwf.
  - now apply resize_WellFormed.
  - now apply resize_WellFormed.
  - apply reseedParticles_WellFormed;
      [apply getDensityAdjustedCount_nonneg | exact Hwf].
  - apply reseedParticles_WellFormed;
      [apply getDensityAdjustedCount_nonneg | exact Hwf].
  - exact Hwf.
Qed.

Lemma run_WellFormed es s : WellFormed s -> WellFormed (run es s).
Proof.
  revert s. induction es as [|e es IH]; intros s Hwf; cbn; [exact Hwf|].
  apply IH. now apply step_WellFormed.
Qed.

(** ** Render step *)

Lemma length_draw s : length (draw s) = Z.to_nat (particleCount s).
Proof. unfold draw. now rewrite length_map, length_seq. Qed.

(** ** A container that collapses, or shrinks below one particle *)

Lemma normalized_degenerate w : w <= 0 -> Rmax 1 (IZR (Math_floor w)) = 1.
Proof.
  intros Hw. apply Rmax_left.
  pose proof (Zfloor_bound w) as [Hb _]. unfold Math_floor. lra.
Qed.

Lemma normalized_integer (z : Z) : (1 <= z)%Z -> Rmax 1 (IZR (Math_floor (IZR z))) = IZR z.
Proof.
  intros Hz. rewrite Math_floor_IZR. apply Rmax_right. now apply IZR_le.
Qed.

Lemma resizeToContainer_zero_count w h s :
  getDensityAdjustedCount s w h = 0%Z ->
  resizeToContainer w h s =
  with_geometry (Rmax 1 (IZR (Math_floor w))) (Rmax 1 (IZR (Math_floor h)))
                (getTargetDpr s) s.
Proof. intros H. unfold resizeToContainer. rewrite H. apply resize_zero. Qed.

Lemma resizeToContainer_fill w h s :
  (0 < getDensityAdjustedCount s w h)%Z ->
  getDensityAdjustedCount s w h <> particleCount s ->
  resizeToContainer w h s =
  reseedParticles (getDensityAdjustedCount s w h)
    (with_geometry (Rmax 1 (IZR (Math_floor w))) (Rmax 1 (IZR (Math_floor h)))
                   (getTargetDpr s) s).
Proof.
  intros Hpos Hne. unfold resizeToContainer.
  destruct (resize_cases w h (Some (getDensityAdjustedCount s w h)) s)
    as [[_ [H | H]] | [H _]]; [lia | contradiction | exact H].
Qed.

(** ** The density model reads only the controls *)

Lemma getTargetDpr_controls s s' :
  controls s = controls s' -> getTargetDpr s = getTargetDpr s'.
Proof.
  intros H. destruct (controls_fields _ _ H)
    as (_ & _ & _ & _ & _ & _ & _ & _ & Ho & Hc & Hp & _).
  unfold getTargetDpr. now rewrite Ho, Hc, Hp.
Qed.

Lemma getDensityAdjustedCount_controls_config s s' w h :
  config s = config s' -> dprOverride s = dprOverride s' ->
  devicePixelRatio (host s) = devicePixelRatio (host s') ->
  getDensityAdjustedCount s w h = getDensityAdjustedCount s' w h.
Proof.
  intros Hc Ho Hp. unfold getDensityAdjustedCount, getTargetDpr.
  now rewrite Hc, Ho, Hp.
Qed.

Lemma default_count_full_hd s :
  config s = defaultConfig -> getTargetDpr s = 1 ->
  getDensityAdjustedCount s 1920 1080 = 4000%Z.
Proof.
  intros Hc Hs. rewrite getDensityAdjustedCount_positive by lra.
  rewrite Hc, Hs. apply targetCount_full_hd.
Qed.

(** ** The sample sessions, step by step *)

Lemma getTargetDpr_freshInstance : getTargetDpr freshInstance = 1.
Proof. now apply getTargetDpr_default. Qed.

Lemma filled_eq :
  filled =
  reseedParticles 4000 (with_geometry 1920 1080 1 freshInstance).
Proof.
  unfold filled. cbn [step].
  assert (Hn : getDensityAdjustedCount freshInstance 1920 1080 = 4000%Z)
    by (apply default_count_full_hd; [reflexivity | apply getTargetDpr_freshInstance]).
  rewrite resizeToContainer_fill by (rewrite Hn; cbn; lia).
  rewrite Hn, getTargetDpr_freshInstance.
  rewrite (normalized_integer 1920), (normalized_integer 1080) by lia.
  reflexivity.
Qed.

Lemma filled_controls :
  controls filled =
  controls (with_particleCount 4000 (with_geometry 1920 1080 1 freshInstance)).
Proof. rewrite filled_eq. apply controls_reseedParticles. Qed.

Lemma filled_WellFormed : WellFormed filled.
Proof. apply step_WellFormed, construct_WellFormed. Qed.

Lemma seeded_half k :
  Spec.seeded (fun _ => 1 / 2) k defaultConfig 1920 1080 = seededHalf.
Proof.
  unfold Spec.seeded, seededHalf, Spec.sample. cbn. f_equal; lra.
Qed.

Lemma filled_particles i :
  (i < 4000)%nat -> particleAt (store filled) i = seededHalf.
Proof.
  intros Hi. rewrite filled_eq.
  destruct (reseedParticles_spec 4000
              (with_geometry 1920 1080 1 freshInstance)
              ltac:(lia) (construct_WellFormed _ _) i Hi) as [k Hk].
  rewrite Hk. apply seeded_half.
Qed.

Lemma getTargetDpr_filled : getTargetDpr filled = 1.
Proof.
  rewrite (getTargetDpr_controls _ _ filled_controls).
  apply getTargetDpr_freshInstance.
Qed.

Lemma filled_snapshot : controls filled = snapshot false 0 1920 1080 1 4000 16 0.
Proof. rewrite filled_controls. reflexivity. Qed.

(** ** Frames in which the controller stays put *)

Lemma loop_calm t s :
  running s = true ->
  (perfCooldownFrames s <= 0)%Z ->
  frameTimeAvg s * 0.9 + (t - lastTime s) * 0.1 <= 22 ->
  let dt := Rmin 0.05 ((t - lastTime s) / 1000) in
  let s1 :=
    with_frameTimeAvg (frameTimeAvg s * 0.9 + (t - lastTime s) * 0.1)
                      (with_lastTime t s) in
  loop t s = (update dt s1, draw (update dt s1)).
Proof.
  intros Hrun Hcd Havg dt s1. rewrite loop_running by exact Hrun.
  fold dt s1. f_equal.
  destruct (update_keeps dt s1) as (_ & _ & _ & Ha & Hc & _).
  apply maybeAdjustPerformance_calm; [now rewrite Hc | now rewrite Ha].
Qed.

Lemma start_calm now s :
  running s = false ->
  (perfCooldownFrames s <= 0)%Z ->
  frameTimeAvg s * 0.9 + (now - now) * 0.1 <= 22 ->
  let dt := Rmin 0.05 ((now - now) / 1000) in
  let s1 :=
    with_frameTimeAvg (frameTimeAvg s * 0.9 + (now - now) * 0.1)
                      (with_lastTime now (with_lastTime now (with_running true s))) in
  start now s = (update dt s1, draw (update dt s1)).
Proof.
  intros Hrun Hcd Havg dt s1. unfold start. rewrite Hrun.
  apply (loop_calm now (with_lastTime now (with_running true s)));
    [reflexivity | exact Hcd | exact Havg].
Qed.

Lemma Rmin_frame_zero : Rmin 0.05 ((0 - 0) / 1000) = 0.
Proof. rewrite Rmin_right by lra. lra. Qed.

Lemma Rmin_frame_16 : Rmin 0.05 ((16 - 0) / 1000) = 0.016.
Proof. rewrite Rmin_right by lra. lra. Qed.

Lemma Rmin_frame_100 : Rmin 0.05 ((100 - 0) / 1000) = 0.05.
Proof. rewrite Rmin_left by lra. lra. Qed.

(** A seeded particle of the sample sessions is far above the bottom edge:
    a tick only moves it. *)
Lemma seededHalf_tick dt h w u1 u2 :
  0 <= dt <= 0.05 -> 0 <= h ->
  Spec.advance dt h w u1 u2 seededHalf = Spec.move dt seededHalf.
Proof.
  intros Hdt Hh. apply advance_kept. unfold Spec.pastBottom. cbn. lra.
Qed.

Lemma settledHalf_tick dt h w u1 u2 :
  0 <= dt <= 0.05 -> 0 <= h ->
  Spec.advance dt h w u1 u2 settledHalf = Spec.move dt settledHalf.
Proof.
  intros Hdt Hh. apply advance_kept. unfold Spec.pastBottom. cbn. lra.
Qed.

Lemma controls_snapshot r lt w h d n a c :
  controls (snapshot r lt w h d n a c) = snapshot r lt w h d n a c.
Proof. reflexivity. Qed.

Lemma snapshot_fields s r lt w h d n a c :
  controls s = snapshot r lt w h d n a c ->
  running s = r /\ lastTime s = lt /\ width s = w /\ height s = h /\
  dpr s = d /\ particleCount s = n /\ frameTimeAvg s = a /\
  perfCooldownFrames s = c /\ dprOverride s = None /\
  config s = defaultConfig /\ devicePixelRatio (host s) = 1 /\
  randomOutputs (host s) = (fun _ => 1 / 2).
Proof.
  intros H. rewrite <- controls_snapshot in H.
  apply controls_fields in H. exact H.
Qed.

Lemma getTargetDpr_snapshot s r lt w h d n a c :
  controls s = snapshot r lt w h d n a c -> getTargetDpr s = 1.
Proof.
  intros H. rewrite <- controls_snapshot in H.
  rewrite (getTargetDpr_controls _ _ H).
  unfold getTargetDpr, snapshot. cbn.
  destruct (Req_dec_T 1 0); [lra|].
  rewrite Rmax_left by lra. now rewrite Rmin_right by lra.
Qed.

Lemma controls_snapshot_intro s r lt w h d n a c :
  running s = r -> lastTime s = lt -> width s = w -> height s = h ->
  dpr s = d -> particleCount s = n -> frameTimeAvg s = a ->
  perfCooldownFrames s = c -> dprOverride s = None ->
  config s = defaultConfig -> devicePixelRatio (host s) = 1 ->
  randomOutputs (host s) = (fun _ => 1 / 2) ->
  controls s = snapshot r lt w h d n a c.
Proof.
  destruct s as [? ? ? ? ? ? ? ? ? ? ? [? ? ?]]. cbn.
  intros; subst; reflexivity.
Qed.

(** After the fill, a container size whose target count is 0, then [start]. *)
Lemma started_after_zero_count (s : State) (w h W H : R) :
  WellFormed s ->
  controls s = snapshot false 0 1920 1080 1 4000 16 0 ->
  (forall i, (i < 4000)%nat -> particleAt (store s) i = seededHalf) ->
  getDensityAdjustedCount s w h = 0%Z ->
  Rmax 1 (IZR (Math_floor w)) = W -> Rmax 1 (IZR (Math_floor h)) = H ->
  0 <= H ->
  let c := fst (start 0 (resizeToContainer w h s)) in
  WellFormed c /\
  controls c = snapshot true 0 W H 1 4000 14.4 0 /\
  (forall i, (i < 4000)%nat -> particleAt (store c) i = settledHalf).
Proof.
  intros Hwf Hs Hp Hzero HW HH Hpos c.
  pose proof (getTargetDpr_snapshot _ _ _ _ _ _ _ _ _ Hs) as Hdpr.
  destruct (snapshot_fields _ _ _ _ _ _ _ _ _ Hs)
    as (Hrun & Hlt & Hw & Hh & Hd & Hn & Ha & Hc & Ho & Hcfg & Hhd & Hrnd).
  unfold c. rewrite resizeToContainer_zero_count by exact Hzero.
  rewrite HW, HH, Hdpr.
  rewrite start_calm; [| exact Hrun | cbn; lia | cbn; rewrite Ha; lra].
  cbn [fst]. rewrite Rmin_frame_zero.
  set (s1 := with_frameTimeAvg _ _).
  assert (Hwf1 : WellFormed s1) by exact Hwf.
  destruct (update_spec 0 s1 Hwf1) as (Hwfc & Hcc & Hat).
  split; [exact Hwfc|]. split.
  - rewrite Hcc. apply controls_snapshot_intro;
      try reflexivity; try assumption.
    change (frameTimeAvg s1) with (frameTimeAvg s * 0.9 + (0 - 0) * 0.1).
    rewrite Ha. lra.
  - intros i Hi. destruct (Hat i) as [k Hk].
    { change (particleCount s1) with (particleCount s). rewrite Hn. exact Hi. }
    rewrite Hk. change (particleAt (store s1) i) with (particleAt (store s) i).
    rewrite (Hp i Hi). change (height s1) with H.
    rewrite seededHalf_tick by lra. reflexivity.
Qed.

(** The particle count after [resize]: a positive requested count is taken
    over, anything else leaves the count as it was. *)
Lemma particleCount_resize w h n s :
  particleCount (resize w h (Some n) s) =
  if (0 <? n)%Z then n else particleCount s.
Proof.
  destruct (resize_cases w h (Some n) s) as [[-> H] | [-> H]].
  - cbn. destruct (Z.ltb_spec 0 n); [|reflexivity].
    destruct H as [H | H]; [lia | now symmetry].
  - rewrite particleCount_reseedParticles.
    apply Z.ltb_lt in H. now rewrite H.
Qed.

(** A frame of [collapsed] or [shrunk] that leaves the controller alone. *)
Lemma calm_frame_after_start (c : State) (W H : R) :
  WellFormed c ->
  controls c = snapshot true 0 W H 1 4000 14.4 0 ->
  (forall i, (i < 4000)%nat -> particleAt (store c) i = settledHalf) ->
  0 <= H ->
  particleCount (fst (loop 16 c)) = 4000%Z /\
  length (snd (loop 16 c)) = 4000%nat /\
  (forall i, (i < 4000)%nat ->
     particleAt (store (fst (loop 16 c))) i = Spec.move 0.016 settledHalf).
Proof.
  intros Hwf Hs Hp Hpos.
  destruct (snapshot_fields _ _ _ _ _ _ _ _ _ Hs)
    as (Hrun & Hlt & Hw & Hh & Hd & Hn & Ha & Hc & Ho & Hcfg & Hhd & Hrnd).
  rewrite loop_calm; [| exact Hrun | lia | rewrite Ha, Hlt; lra].
  cbn [fst snd]. rewrite Hlt, Rmin_frame_16.
  set (s1 := with_frameTimeAvg _ _).
  assert (Hwf1 : WellFormed s1) by exact Hwf.
  destruct (update_spec 0.016 s1 Hwf1) as (Hwfc & Hcc & Hat).
  destruct (update_keeps 0.016 s1) as (_ & _ & _ & _ & _ & _ & _ & _ & Hcount).
  change (particleCount s1) with (particleCount c) in Hcount, Hat.
  rewrite Hn in Hcount, Hat.
  split; [exact Hcount|]. split; [now rewrite length_draw, Hcount|].
  intros i Hi. destruct (Hat i Hi) as [k Hk]. rewrite Hk.
  change (particleAt (store s1) i) with (particleAt (store c) i).
  rewrite (Hp i Hi). change (height s1) with (height c). rewrite Hh.
  now rewrite settledHalf_tick by lra.
Qed.

Lemma collapsed_eq :
  collapsed = fst (start 0 (resizeToContainer 0 0 filled)).
Proof. reflexivity. Qed.

Lemma shrunk_eq :
  shrunk = fst (start 0 (resizeToContainer 20 20 filled)).
Proof. reflexivity. Qed.

Lemma targetCount_20_by_20 : Spec.targetCount 20 20 5000 4000 1 = 0%Z.
Proof.
  unfold Spec.targetCount, Spec.clampZ.
  rewrite (Zfloor_eq 0%Z); [reflexivity|]. lra.
Qed.

Lemma collapsed_facts :
  WellFormed collapsed /\
  controls collapsed = snapshot true 0 1 1 1 4000 14.4 0 /\
  (forall i, (i < 4000)%nat -> particleAt (store collapsed) i = settledHalf).
Proof.
  rewrite collapsed_eq.
  apply (started_after_zero_count filled 0 0 1 1 filled_WellFormed
           filled_snapshot filled_particles).
  - apply getDensityAdjustedCount_degenerate. left. lra.
  - apply normalized_degenerate. lra.
  - apply normalized_degenerate. lra.
  - lra.
Qed.

Lemma shrunk_facts :
  WellFormed shrunk /\
  controls shrunk = snapshot true 0 20 20 1 4000 14.4 0 /\
  (forall i, (i < 4000)%nat -> particleAt (store shrunk) i = settledHalf).
Proof.
  rewrite shrunk_eq.
  apply (started_after_zero_count filled 20 20 20 20 filled_WellFormed
           filled_snapshot filled_particles).
  - rewrite getDensityAdjustedCount_positive by lra.
    destruct (controls_fields _ _ filled_controls)
      as (_ & _ & _ & _ & _ & _ & _ & _ & _ & Hcfg & _).
    rewrite Hcfg, getTargetDpr_filled. apply targetCount_20_by_20.
  - apply (normalized_integer 20). lia.
  - apply (normalized_integer 20). lia.
  - lra.
Qed.

(** ** C7 on the code: a collapsed container keeps the particles going *)

(** C7, evaluated.  The density model returns 0 for a 0 x 0 container, but
    the instance that held 4000 particles still holds them on the
    normalised 1 x 1 surface: the next frame paints 4000 squares and moves
    particle 0 from y = -540 to y = -540 + 70 * 0.016. *)
Theorem degenerate_geometry_keeps_particles :
  getDensityAdjustedCount filled 0 0 = 0%Z /\
  particleCount collapsed = 4000%Z /\
  width collapsed = 1 /\ height collapsed = 1 /\
  length (snd (loop 16 collapsed)) = 4000%nat /\
  Spec.posY (particleAt (store collapsed) 0) = -540 /\
  Spec.posY (particleAt (store (fst (loop 16 collapsed))) 0) = -540 + 70 * 0.016.
Proof.
  destruct collapsed_facts as (Hwf & Hs & Hp).
  destruct (calm_frame_after_start collapsed 1 1 Hwf Hs Hp ltac:(lra))
    as (_ & Hlen & Hmoved).
  destruct (snapshot_fields _ _ _ _ _ _ _ _ _ Hs)
    as (_ & _ & Hw & Hh & _ & Hn & _).
  split; [apply getDensityAdjustedCount_degenerate; left; lra|].
  split; [exact Hn|]. split; [exact Hw|]. split; [exact Hh|].
  split; [exact Hlen|].
  rewrite (Hp 0%nat) by lia. rewrite (Hmoved 0%nat) by lia.
  split; cbn; lra.
Qed.

(** The general shape of it: a degenerate container size gives a zero
    count and leaves the store and the particle count untouched, so the
    frames that follow are no-ops only for an instance without particles. *)
Lemma degenerate_resize (s : State) (w h : R) :
  w <= 0 \/ h <= 0 ->
  getDensityAdjustedCount s w h = 0%Z /\
  particleCount (resizeToContainer w h s) = particleCount s /\
  store (resizeToContainer w h s) = store s /\
  1 <= width (resizeToContainer w h s) /\ 1 <= height (resizeToContainer w h s).
Proof.
  intros Hdeg.
  pose proof (getDensityAdjustedCount_degenerate s w h Hdeg) as Hz.
  rewrite resizeToContainer_zero_count by exact Hz.
  split; [exact Hz|]. cbn. repeat split; try reflexivity; apply Rmax_l.
Qed.

Lemma empty_instance_idles (s : State) (dt : R) :
  particleCount s = 0%Z -> update dt s = s /\ draw s = [].
Proof. intros H. unfold update, draw. rewrite H. split; reflexivity. Qed.

(** ** C4 on the code: a slow frame whose target count is zero *)

Lemma floor_three_quarters_4000 : Zfloor (IZR 4000 * 0.75) = 3000%Z.
Proof. apply Zfloor_eq. lra. Qed.

Lemma getTargetDpr_plain s :
  config s = defaultConfig -> dprOverride s = None ->
  devicePixelRatio (host s) = 1 -> getTargetDpr s = 1.
Proof.
  intros Hc Ho Hd. unfold getTargetDpr. rewrite Hc, Ho, Hd. cbn.
  destruct (Req_dec_T 1 0); [lra|].
  rewrite Rmax_left by lra. now rewrite Rmin_right by lra.
Qed.

Lemma default_count_20_by_20 s :
  config s = defaultConfig -> getTargetDpr s = 1 ->
  getDensityAdjustedCount s 20 20 = 0%Z.
Proof.
  intros Hc Hs. rewrite getDensityAdjustedCount_positive by lra.
  rewrite Hc, Hs. apply targetCount_20_by_20.
Qed.

Lemma slow_frame_after_start (c : State) :
  WellFormed c ->
  controls c = snapshot true 0 20 20 1 4000 14.4 0 ->
  let s' := fst (loop 100 c) in
  22 < frameTimeAvg s' /\
  getDensityAdjustedCount s' (width s') (height s') = 0%Z /\
  perfCooldownFrames s' = 90%Z /\
  particleCount s' = 4000%Z /\
  dprOverride s' = None.
Proof.
  intros Hwf Hs. rewrite <- controls_snapshot in Hs.
  destruct (controls_fields _ _ Hs)
    as (Hrun & Hlt & Hw & Hh & Hd & Hn & Ha & Hc & Ho & Hcfg & Hhd & Hrnd).
  cbn in Hrun, Hlt, Hw, Hh, Hd, Hn, Ha, Hc, Ho, Hcfg, Hhd, Hrnd.
  cbn zeta. rewrite loop_running by exact Hrun. cbn [fst].
  rewrite Hlt, Rmin_frame_100.
  set (s1 := with_frameTimeAvg _ _).
  destruct (update_keeps 0.05 s1)
    as (Huo & Hucfg & Huhd & Hua & Huc & Huw & Huh & Hud & Hun).
  set (u := update 0.05 s1) in *.
  change (dprOverride s1) with (dprOverride c) in Huo.
  change (config s1) with (config c) in Hucfg.
  change (devicePixelRatio (host s1)) with (devicePixelRatio (host c)) in Huhd.
  change (frameTimeAvg s1) with (frameTimeAvg c * 0.9 + (100 - 0) * 0.1) in Hua.
  change (perfCooldownFrames s1) with (perfCooldownFrames c) in Huc.
  change (width s1) with (width c) in Huw.
  change (height s1) with (height c) in Huh.
  change (dpr s1) with (dpr c) in Hud.
  change (particleCount s1) with (particleCount c) in Hun.
  rewrite Ho in Huo. rewrite Hcfg in Hucfg. rewrite Hhd in Huhd.
  rewrite Ha in Hua. rewrite Hc in Huc. rewrite Hw in Huw. rewrite Hh in Huh.
  rewrite Hd in Hud. rewrite Hn in Hun.
  rewrite maybeAdjustPerformance_slow by (rewrite ?Huc, ?Hua; lia || lra).
  cbn zeta. unfold effectiveOverride. rewrite Huo, Hud, Hun, Huw, Huh.
  assert (Hlow : Spec.clampR 1 1 1.25 = 1).
  { unfold Spec.clampR. rewrite Rmin_right by lra. now rewrite Rmax_left by lra. }
  rewrite Hlow.
  assert (Hno : Rltb 1 1 = false) by (apply Rltb_false_iff; lra).
  rewrite Hno, floor_three_quarters_4000. cbn [orb Z.max Z.ltb Z.compare Pos.compare
    Pos.compare_cont].
  change (Z.max 200 3000) with 3000%Z. change (3000 <? 4000)%Z with true. cbn iota.
  set (s2 := with_perfCooldownFrames 90 u).
  assert (Hdpr : getTargetDpr s2 = 1) by now apply getTargetDpr_plain.
  assert (Hzero : getDensityAdjustedCount s2 20 20 = 0%Z)
    by now apply default_count_20_by_20.
  rewrite Hzero. change (Z.min 3000 0) with 0%Z. rewrite resize_zero.
  rewrite (normalized_integer 20) by lia.
  set (s3 := with_geometry 20 20 (getTargetDpr s2) s2).
  change (frameTimeAvg s3) with (frameTimeAvg u).
  change (perfCooldownFrames s3) with 90%Z.
  change (particleCount s3) with (particleCount u).
  change (dprOverride s3) with (dprOverride u).
  change (width s3) with 20. change (height s3) with 20.
  rewrite Hua, Hun, Huo.
  split; [lra|]. split; [|repeat split].
  apply default_count_20_by_20; [exact Hucfg|].
  now apply getTargetDpr_plain.
Qed.

(** C4, evaluated.  On [shrunk] (4000 particles on a 20 x 20 surface, no
    cooldown) a frame of 100 ms raises the average above 22; the reduced
    count is 3000 and the target count of the surface is 0, so the
    controller asks for min(3000, 0) = 0 particles and enters the cooldown
    of 90 frames, but the instance still has its 4000 particles. *)
Theorem controller_zero_target :
  perfCooldownFrames shrunk = 0%Z /\
  particleCount shrunk = 4000%Z /\
  22 < frameTimeAvg (fst (loop 100 shrunk)) /\
  Z.max 200 (Zfloor (IZR (particleCount shrunk) * 0.75)) = 3000%Z /\
  Z.min 3000
    (getDensityAdjustedCount (fst (loop 100 shrunk))
       (width (fst (loop 100 shrunk))) (height (fst (loop 100 shrunk)))) = 0%Z /\
  perfCooldownFrames (fst (loop 100 shrunk)) = 90%Z /\
  particleCount (fst (loop 100 shrunk)) = 4000%Z.
Proof.
  destruct shrunk_facts as (Hwf & Hs & _).
  destruct (slow_frame_after_start shrunk Hwf Hs) as (Havg & Hzero & Hcd & Hn & _).
  destruct (snapshot_fields _ _ _ _ _ _ _ _ _ Hs)
    as (_ & _ & _ & _ & _ & Hn0 & _ & Hc0 & _).
  split; [exact Hc0|]. split; [exact Hn0|]. split; [exact Havg|].
  split; [rewrite Hn0; rewrite floor_three_quarters_4000; reflexivity|].
  split; [now rewrite Hzero|]. split; assumption.
Qed.

(** ** The controller where the requested count is positive *)

Lemma loop_frameTimeAvg t s :
  running s = true ->
  frameTimeAvg (fst (loop t s)) =
  frameTimeAvg s * 0.9 + (t - lastTime s) * 0.1.
Proof.
  intros Hrun. rewrite loop_running by exact Hrun. cbn [fst].
  set (dt := Rmin _ _). set (s1 := with_frameTimeAvg _ _).
  destruct (update_keeps dt s1) as (_ & _ & _ & Ha & _).
  change (frameTimeAvg s1) with (frameTimeAvg s * 0.9 + (t - lastTime s) * 0.1) in Ha.
  rewrite <- Ha. unfold maybeAdjustPerformance.
  destruct (0 <? perfCooldownFrames (update dt s1))%Z; [reflexivity|].
  destruct (Rlt_dec 22 (frameTimeAvg (update dt s1))); [|reflexivity].
  destruct (Rltb _ _); cbn [orb].
  - match goal with |- frameTimeAvg (resize ?w ?h ?n ?st) = _ =>
      destruct (resize_keeps w h n st) as (_ & _ & _ & -> & _) end.
    reflexivity.
  - destruct (_ <? _)%Z; [|reflexivity].
    match goal with |- frameTimeAvg (resize ?w ?h ?n ?st) = _ =>
      destruct (resize_keeps w h n st) as (_ & _ & _ & -> & _) end.
    reflexivity.
Qed.

Lemma controller_applies s :
  (perfCooldownFrames s <= 0)%Z -> 22 < frameTimeAvg s ->
  let loweredScale := Spec.clampR (dpr s) 1 1.25 in
  let reducedCount := Z.max 200 (Zfloor (IZR (particleCount s) * 0.75)) in
  let lowersScale := Rltb loweredScale (effectiveOverride s) in
  let s1 := if lowersScale then with_dprOverride (Some loweredScale) s else s in
  let nextCount :=
    Z.min reducedCount (getDensityAdjustedCount s1 (width s) (height s)) in
  let s' := maybeAdjustPerformance s in
  (lowersScale = true \/ (reducedCount < particleCount s)%Z ->
   dprOverride s' = dprOverride s1 /\
   perfCooldownFrames s' = 90%Z /\
   particleCount s' = (if (0 <? nextCount)%Z then nextCount else particleCount s)) /\
  (lowersScale = false -> (particleCount s <= reducedCount)%Z -> s' = s).
Proof.
  intros Hcd Hslow. cbn zeta.
  rewrite maybeAdjustPerformance_slow by assumption. cbn zeta.
  set (lowered := Spec.clampR (dpr s) 1 1.25).
  set (reduced := Z.max 200 (Zfloor (IZR (particleCount s) * 0.75))).
  set (s1 := if Rltb lowered (effectiveOverride s) then _ else s).
  assert (Hcount :
    getDensityAdjustedCount (with_perfCooldownFrames 90 s1) (width s) (height s)
    = getDensityAdjustedCount s1 (width s) (height s))
    by (apply getDensityAdjustedCount_controls_config; reflexivity).
  rewrite Hcount. split.
  - intros Hneed.
    assert (Hg : Rltb lowered (effectiveOverride s) || (reduced <? particleCount s)%Z
                 = true).
    { destruct Hneed as [-> | H]; [reflexivity|].
      apply Z.ltb_lt in H. rewrite H. apply orb_true_r. }
    rewrite Hg.
    match goal with |- context [resize ?w ?h (Some ?n) ?st] =>
      destruct (resize_keeps w h (Some n) st) as (Ho & _ & _ & _ & Hc & _);
      pose proof (particleCount_resize w h n st) as Hn end.
    rewrite Ho, Hc, Hn. repeat split.
    unfold s1. destruct (Rltb lowered (effectiveOverride s)); reflexivity.
  - intros Hno Hge. rewrite Hno. cbn [orb].
    destruct (Z.ltb_spec reduced (particleCount s)); [lia | reflexivity].
Qed.

(** ** The ratchet engaging *)

Lemma scale_ratchet_witness :
  dprOverride (step (AnimationFrame 30) straining) = Some 1.25 /\
  overrideNotAbove (dprOverride (run [AnimationFrame 30] straining))
                   (dprOverride straining) /\
  exists v, dprOverride (step (AnimationFrame 30) straining) = Some v /\
            v < effectiveOverride straining.
Proof.
  assert (Hval : dprOverride (step (AnimationFrame 30) straining) = Some 1.25).
  { cbn [step]. rewrite loop_running by reflexivity. cbn [fst].
    set (dt := Rmin _ _). set (s1 := with_frameTimeAvg _ _).
    destruct (update_keeps dt s1) as (Ho & _ & _ & Ha & Hc & _ & _ & Hd & _).
    assert (Hlow : Spec.clampR 2 1 1.25 = 1.25).
    { unfold Spec.clampR. rewrite Rmin_left by lra. now rewrite Rmax_right by lra. }
    destruct (controller_applies (update dt s1)) as [Happly _].
    - rewrite Hc. cbn. lia.
    - rewrite Ha. cbn. lra.
    - destruct Happly as (Hov & _).
      + left. unfold effectiveOverride. rewrite Ho, Hd. cbn.
        rewrite Hlow. apply Rltb_true_iff. lra.
      + rewrite Hov. unfold effectiveOverride. rewrite Ho, Hd. cbn.
        rewrite Hlow.
        assert (Ht : Rltb 1.25 2 = true) by (apply Rltb_true_iff; lra).
        rewrite Ht. reflexivity. }
  destruct (scale_ratchet [AnimationFrame 30] straining) as (Hmono & Hassign & _).
  split; [exact Hval|]. split; [exact Hmono|].
  apply Hassign. rewrite Hval. discriminate.
Defined.

(** ** Particles live on a surface of positive size *)

Lemma resize_SurfaceSized w h n s : SurfaceSized (resize w h n s).
Proof.
  right. destruct (resize_keeps w h n s) as (_ & _ & _ & _ & _ & -> & -> & _).
  split; apply Rmax_l.
Qed.

Lemma maybeAdjustPerformance_SurfaceSized s :
  SurfaceSized s -> SurfaceSized (maybeAdjustPerformance s).
Proof.
  intros Hs. unfold maybeAdjustPerformance.
  destruct (0 <? perfCooldownFrames s)%Z; [exact Hs|].
  destruct (Rlt_dec 22 (frameTimeAvg s)); [|exact Hs].
  destruct (Rltb _ _); cbn [orb].
  - apply resize_SurfaceSized.
  - destruct (_ <? _)%Z; [apply resize_SurfaceSized | exact Hs].
Qed.

Lemma loop_SurfaceSized t s : SurfaceSized s -> SurfaceSized (fst (loop t s)).
Proof.
  intros Hs. unfold loop. destruct (running s); cbn [negb fst]; [|exact Hs].
  apply maybeAdjustPerformance_SurfaceSized.
  match goal with |- SurfaceSized (update ?dt ?st) =>
    destruct (update_keeps dt st) as (_ & _ & _ & _ & _ & Hw & Hh & _ & Hn) end.
  unfold SurfaceSized. rewrite Hw, Hh, Hn. exact Hs.
Qed.

Lemma reseed_to_density_SurfaceSized s :
  SurfaceSized s ->
  SurfaceSized
    (reseedParticles (getDensityAdjustedCount s (width s) (height s)) s).
Proof.
  intros Hs.
  set (n := getDensityAdjustedCount s (width s) (height s)).
  destruct (reseedParticles_keeps n s) as (_ & _ & _ & _ & _ & Hw & Hh & _).
  pose proof (particleCount_reseedParticles n s) as Hn.
  unfold SurfaceSized. rewrite Hw, Hh, Hn.
  destruct Hs as [(H0 & H1 & _) | Hs]; [left | now right].
  repeat split; try assumption.
  unfold n. apply getDensityAdjustedCount_degenerate. left. lra.
Qed.

Lemma step_SurfaceSized e s : SurfaceSized s -> SurfaceSized (step e s).
Proof.
  intros Hs. destruct e; cbn [step].
  - now apply loop_SurfaceSized.
  - unfold start. destruct (running s); [exact Hs|].
    apply loop_SurfaceSized. exact Hs.
  - exact Hs.
  - apply resize_SurfaceSized.
  - apply resize_SurfaceSized.
  - unfold setAmount. apply reseed_to_density_SurfaceSized. exact Hs.
  - unfold setMaxParticles. apply reseed_to_density_SurfaceSized. exact Hs.
  - exact Hs.
Qed.

(** In every session, an instance that holds particles is well formed and
    has a surface of width and height at least 1. *)
Lemma session_invariant cfg h es :
  let s := run es (construct cfg h) in
  WellFormed s /\ ((0 < particleCount s)%Z -> 1 <= width s /\ 1 <= height s).
Proof.
  cbn zeta. split; [apply run_WellFormed, construct_WellFormed|].
  assert (Hs : SurfaceSized (run es (construct cfg h))).
  { assert (H0 : SurfaceSized (construct cfg h)) by (left; repeat split).
    revert H0. generalize (construct cfg h) as s. unfold run.
    induction es as [|e es IH]; intros s Hs; cbn; [exact Hs|].
    apply IH. now apply step_SurfaceSized. }
  intros Hn. destruct Hs as [(_ & _ & H0) | Hs]; [lia | exact Hs].
Qed.

(** ** Size, amplitude and rates stay within the configured ranges *)

Lemma sample_within r u : ordered r -> 0 <= u < 1 -> within r (Spec.sample r u).
Proof.
  unfold ordered, within, Spec.sample. destruct r as [lo hi]. cbn.
  intros Hr [H0 H1]. split; nra.
Qed.

Lemma seeded_InRanges random k cfg cfg' w h :
  OrderedRanges cfg -> sameRanges cfg' cfg ->
  (forall n, 0 <= random n < 1) ->
  InRanges cfg (Spec.seeded random k cfg' w h).
Proof.
  intros (Hs & Ha & Hv & Hf) (Es & Ea & Ev & Ef) Hr.
  unfold InRanges, Spec.seeded. cbn. rewrite Es, Ea, Ev, Ef.
  repeat split; apply sample_within; auto.
Qed.

Lemma advance_InRanges cfg dt h w u1 u2 q :
  InRanges cfg q -> InRanges cfg (Spec.advance dt h w u1 u2 q).
Proof.
  intros H. unfold Spec.advance.
  destruct (Rlt_dec h _); exact H.
Qed.

Lemma update_Seeded cfg dt s : Seeded cfg s -> Seeded cfg (update dt s).
Proof.
  intros (Hwf & Hcfg & Hrnd & Hin).
  destruct (update_spec dt s Hwf) as (Hwf' & Hc & Hat).
  destruct (controls_fields _ _ Hc)
    as (_ & _ & _ & _ & _ & Hn & _ & _ & _ & Hcf & _ & Hr).
  split; [exact Hwf'|]. split; [now rewrite Hcf|]. split; [now rewrite Hr|].
  intros i Hi. rewrite Hn in Hi. destruct (Hat i Hi) as [k ->].
  apply advance_InRanges. now apply Hin.
Qed.

Lemma reseedParticles_Seeded cfg count s :
  OrderedRanges cfg -> (0 <= count)%Z ->
  WellFormed s -> sameRanges (config s) cfg ->
  (forall n, 0 <= randomOutputs (host s) n < 1) ->
  Seeded cfg (reseedParticles count s).
Proof.
  intros Hord Hc Hwf Hcfg Hrnd.
  destruct (controls_fields _ _ (controls_reseedParticles count s))
    as (_ & _ & _ & _ & _ & Hn & _ & _ & _ & Hcf & _ & Hr).
  cbn in Hn, Hcf, Hr.
  split; [now apply reseedParticles_WellFormed|].
  split; [now rewrite Hcf|]. split; [now rewrite Hr|].
  intros i Hi. rewrite Hn in Hi.
  destruct (reseedParticles_spec count s Hc Hwf i Hi) as [k ->].
  now apply seeded_InRanges.
Qed.

Lemma resize_Seeded cfg w h n s :
  OrderedRanges cfg -> Seeded cfg s -> Seeded cfg (resize w h n s).
Proof.
  intros Hord (Hwf & Hcfg & Hrnd & Hin).
  destruct (resize_cases w h n s) as [[-> _] | [-> Hpos]].
  - split; [exact Hwf|]. split; [exact Hcfg|]. split; [exact Hrnd | exact Hin].
  - apply reseedParticles_Seeded; try assumption. lia.
Qed.

Lemma maybeAdjustPerformance_Seeded cfg s :
  OrderedRanges cfg -> Seeded cfg s -> Seeded cfg (maybeAdjustPerformance s).
Proof.
  intros Hord Hs. unfold maybeAdjustPerformance.
  destruct (0 <? perfCooldownFrames s)%Z; [exact Hs|].
  destruct (Rlt_dec 22 (frameTimeAvg s)); [|exact Hs].
  destruct (Rltb _ _); cbn [orb].
  - apply resize_Seeded; [exact Hord | exact Hs].
  - destruct (_ <? _)%Z; [|exact Hs].
    apply resize_Seeded; [exact Hord | exact Hs].
Qed.

Lemma loop_Seeded cfg t s :
  OrderedRanges cfg -> Seeded cfg s -> Seeded cfg (fst (loop t s)).
Proof.
  intros Hord Hs. unfold loop. destruct (running s); cbn [negb fst]; [|exact Hs].
  apply maybeAdjustPerformance_Seeded; [exact Hord|].
  apply update_Seeded. exact Hs.
Qed.

Lemma step_Seeded cfg e s :
  OrderedRanges cfg -> Seeded cfg s -> Seeded cfg (step e s).
Proof.
  intros Hord Hs. destruct e; cbn [step].
  - now apply loop_Seeded.
  - unfold start. destruct (running s); [exact Hs|].
    apply loop_Seeded; [exact Hord | exact Hs].
  - exact Hs.
  - now apply resize_Seeded.
  - now apply resize_Seeded.
  - destruct Hs as (Hwf & Hcfg & Hrnd & _).
    apply reseedParticles_Seeded; try assumption.
    apply getDensityAdjustedCount_nonneg.
  - destruct Hs as (Hwf & Hcfg & Hrnd & _).
    apply reseedParticles_Seeded; try assumption.
    apply getDensityAdjustedCount_nonneg.
  - exact Hs.
Qed.

(** In every session on a host whose [Math.random] stays in [0, 1), with
    ranges given as [min <= max], every particle has its size, amplitude,
    swing rate and fall rate within the configured ranges. *)
Lemma session_ranges cfg h es :
  OrderedRanges cfg ->
  (forall n, 0 <= randomOutputs h n < 1) ->
  Seeded cfg (run es (construct cfg h)).
Proof.
  intros Hord Hrnd.
  assert (H0 : Seeded cfg (construct cfg h)).
  { split; [apply construct_WellFormed|]. split; [repeat split|].
    split; [exact Hrnd|]. intros i Hi. cbn in Hi. lia. }
  revert H0. generalize (construct cfg h) as s. unfold run.
  induction es as [|e es IH]; intros s Hs; cbn; [exact Hs|].
  apply IH. now apply step_Seeded.
Qed.
